(** * Rift VS Code client: agent registry, agent sessions and RPC dispatch

    A shallow embedding of the extension's [MorphLanguageClient] and [Agent]
    classes (extension source, [src/unnamed/part_000]).  Objects become records,
    the [Map<number, Agent>] registry becomes an insertion-ordered association
    list with the [Map.get]/[Map.set] semantics of JavaScript, thrown errors
    become an [Outcome], and every method threads the client state explicitly. *)

From Stdlib Require Import String Ascii List ZArith NArith Bool Lia.
Import ListNotations.

(** ** Data model *)

Record Position := mkPosition { line : nat; character : nat }.

(** [vscode.Range]; [end] is a keyword, so the fields are [r_start]/[r_end]. *)
Record Range := mkRange { r_start : Position; r_end : Position }.

Record TextDocumentIdentifier := mkTDI { uri : string }.

(** [type AgentStatus = 'running' | 'done' | 'error' | 'accepted' | 'rejected'] *)
Inductive AgentStatus := running | done | error | accepted | rejected.

Definition AgentStatus_eqb (x y : AgentStatus) : bool :=
  match x, y with
  | running, running | done, done | error, error
  | accepted, accepted | rejected, rejected => true
  | _, _ => false
  end.

Lemma AgentStatus_eqb_spec x y : AgentStatus_eqb x y = true <-> x = y.
Proof. destruct x, y; simpl; split; congruence. Qed.

Lemma AgentStatus_eqb_refl x : AgentStatus_eqb x x = true.
Proof. destruct x; reflexivity. Qed.

(** [if (params.status)]: every [AgentStatus] literal is a non-empty string,
    hence truthy. *)
Definition status_truthy (s : AgentStatus) : bool := true.

Record Log := mkLog { severity : string; message : string }.

(** [interface RunAgentProgress]; optional fields are [option]s. *)
Module Progress.
Record RunAgentProgress := mk {
  id : Z;
  textDocument : TextDocumentIdentifier;
  log : option Log;
  cursor : option Position;
  ranges : option (list Range);
  status : AgentStatus
}.
End Progress.
Abbreviation RunAgentProgress := Progress.RunAgentProgress.

(** A decoration type is an opaque handle created by
    [vscode.window.createTextEditorDecorationType]. *)
Definition DecorationType := nat.

(** A visible text editor: the uri of its document and, per decoration type,
    the ranges last given to [setDecorations]. *)
Record Editor := mkEditor {
  ed_uri : string;
  ed_decorations : list (DecorationType * list Range)
}.

(** ** Association lists with JavaScript [Map] semantics *)

Section AssocMap.
Context {K V : Type} (eqbK : K -> K -> bool).

(** [Map.prototype.get] *)
Fixpoint map_get (m : list (K * V)) (k : K) : option V :=
  match m with
  | [] => None
  | (k', v) :: m' => if eqbK k' k then Some v else map_get m' k
  end.

(** [Map.prototype.set]: an existing key keeps its insertion position,
    a new key is appended. *)
Fixpoint map_set (m : list (K * V)) (k : K) (v : V) : list (K * V) :=
  match m with
  | [] => [(k, v)]
  | (k', v') :: m' => if eqbK k' k then (k', v) :: m' else (k', v') :: map_set m' k v
  end.

End AssocMap.

(** [editor.setDecorations(type, ranges)] *)
Definition setDecorations (e : Editor) (t : DecorationType) (rs : list Range) : Editor :=
  mkEditor (ed_uri e) (map_set Nat.eqb (ed_decorations e) t rs).

(** ** [class Agent] *)

Module Agent.
Record t := mk {
  id : Z;
  startPosition : Position;
  textDocument : TextDocumentIdentifier;
  status : AgentStatus;
  green : DecorationType;
  ranges : list Range;
  (** statuses passed to [onStatusChangeEmitter.fire], oldest first *)
  fired : list AgentStatus;
  (** whether [run_agent] subscribed [changeLensEmitter.fire] to
      [onStatusChange] *)
  wired : bool
}.

(** [constructor(id, startPosition, textDocument)]; [green] is the freshly
    created decoration type. *)
Definition new (id : Z) (startPosition : Position) (textDocument : TextDocumentIdentifier)
    (green : DecorationType) : t :=
  mk id startPosition textDocument running green [] [] false.

Definition set_status (a : t) (s : AgentStatus) : t :=
  mk (id a) (startPosition a) (textDocument a) s (green a) (ranges a) (fired a ++ [s]) (wired a).

Definition set_ranges (a : t) (rs : list Range) : t :=
  mk (id a) (startPosition a) (textDocument a) (status a) (green a) rs (fired a) (wired a).

Definition set_wired (a : t) : t :=
  mk (id a) (startPosition a) (textDocument a) (status a) (green a) (ranges a) (fired a) true.

(** [new vscode.Range(r.start.line, r.start.character, r.end.line, r.end.character)] *)
Definition copy_range (r : Range) : Range :=
  mkRange (mkPosition (line (r_start r)) (character (r_start r)))
          (mkPosition (line (r_end r)) (character (r_end r))).

(** The loop over the visible editors of [params.textDocument]. *)
Definition decorate (a : t) (params : RunAgentProgress) (e : Editor) : Editor :=
  if String.eqb (ed_uri e) (uri (Progress.textDocument params)) then
    match Progress.status params with
    | accepted | rejected => setDecorations e (green a) []
    | _ =>
        match Progress.ranges params with
        | Some rs => setDecorations e (green a) (map copy_range rs)
        | None => e
        end
    end
  else e.

(** [handleProgress(params)]: returns the updated agent and the visible
    editors after the decoration updates. *)
Definition handleProgress (a : t) (params : RunAgentProgress) (editors : list Editor)
    : t * list Editor :=
  let a1 :=
    if status_truthy (Progress.status params) then
      if negb (AgentStatus_eqb (status a) (Progress.status params))
      then set_status a (Progress.status params)
      else a
    else a in
  let a2 :=
    match Progress.ranges params with
    | Some rs => set_ranges a1 rs
    | None => a1
    end in
  (a2, map (decorate a params) editors).

End Agent.

(** ** [class MorphLanguageClient] *)

(** [State] of [vscode-languageclient]. *)
Inductive ClientState := Stopped | Starting | Running.

Definition ClientState_eqb (x y : ClientState) : bool :=
  match x, y with
  | Stopped, Stopped | Starting, Starting | Running, Running => true
  | _, _ => false
  end.

(** The chat callback slot [morphNotifyChatCallback]: its default throws
    ['no callback set']; a caller's callback is an opaque handle. *)
Inductive ChatCallback := NoCallbackSet | UserCallback (n : nat).

(** Handlers registered with [client.onNotification]. *)
Inductive Handler :=
  | HMorphNotify                  (* this.morph_notify.bind(this) *)
  | HChat (cb : ChatCallback).    (* this.morphNotifyChatCallback.bind(this) *)

(** Outbound messages on the connection. *)
Inductive Message :=
  | Notification (method : string) (id : Z)
  | Request (method : string).

Record LanguageClient := mkLC {
  lc_state : ClientState;
  lc_handlers : list (string * Handler);
  lc_sent : list Message
}.

Definition sendMessage (c : LanguageClient) (msg : Message) : LanguageClient :=
  mkLC (lc_state c) (lc_handlers c) (lc_sent c ++ [msg]).

(** [client.onNotification(method, handler)]: one handler per method, a new
    registration replaces the previous one. *)
Definition onNotification (c : LanguageClient) (method : string) (h : Handler) : LanguageClient :=
  mkLC (lc_state c) (map_set String.eqb (lc_handlers c) method h) (lc_sent c).

Record Morph := mkMorph {
  client : option LanguageClient;
  agents : list (Z * Agent.t);
  (** [vscode.window.visibleTextEditors] *)
  visibleTextEditors : list Editor;
  (** number of [changeLensEmitter.fire()] calls so far *)
  lens_fires : nat;
  morphNotifyChatCallback : ChatCallback;
  (** chat payloads delivered to callers' callbacks *)
  chat_delivered : list (nat * string);
  (** next handle returned by [createTextEditorDecorationType] *)
  next_decoration : nat
}.

Definition set_client (m : Morph) (c : option LanguageClient) : Morph :=
  mkMorph c (agents m) (visibleTextEditors m) (lens_fires m) (morphNotifyChatCallback m)
          (chat_delivered m) (next_decoration m).

Definition set_agents (m : Morph) (ags : list (Z * Agent.t)) : Morph :=
  mkMorph (client m) ags (visibleTextEditors m) (lens_fires m) (morphNotifyChatCallback m)
          (chat_delivered m) (next_decoration m).

Inductive Outcome (A : Type) := Ok (v : A) | Throw (msg : string).
Arguments Ok {A} v.
Arguments Throw {A} msg.

Definition DEFAULT_PORT : Z := 7797.

(** Decimal rendering of a number, as in a template literal [`${n}`]. *)
Fixpoint digits (fuel : nat) (n : N) (acc : string) : string :=
  match fuel with
  | O => acc
  | S f =>
      let acc' := String (ascii_of_N (48 + N.modulo n 10)) acc in
      if N.ltb n 10 then acc' else digits f (N.div n 10) acc'
  end.

Definition show_Z (z : Z) : string :=
  match z with
  | Z0 => "0"
  | Zpos p => digits (Pos.size_nat p) (Npos p) ""
  | Zneg p => String "-" (digits (Pos.size_nat p) (Npos p) "")
  end.

(** [is_running()]: [this.client && this.client.state == State.Running]. *)
Definition is_running (m : Morph) : bool :=
  match client m with
  | Some c => ClientState_eqb (lc_state c) Running
  | None => false
  end.

(** [morph_notify(params)] *)
Definition morph_notify (params : RunAgentProgress) (m : Morph) : Outcome unit * Morph :=
  if negb (is_running m) then (Throw "client not running, please wait...", m) else
  match map_get Z.eqb (agents m) (Progress.id params) with
  | None => (Throw "agent not found", m)
  | Some a =>
      let '(a', eds) := Agent.handleProgress a params (visibleTextEditors m) in
      let lens := if Agent.wired a
                  then length (Agent.fired a') - length (Agent.fired a) else 0 in
      (Ok tt, mkMorph (client m) (map_set Z.eqb (agents m) (Progress.id params) a') eds
                      (lens_fires m + lens) (morphNotifyChatCallback m)
                      (chat_delivered m) (next_decoration m))
  end.

Record RunAgentParams := mkRunAgentParams {
  task : string;
  position : Position;
  ra_textDocument : TextDocumentIdentifier
}.

(** The backend's answer to ['morph/run_agent']. *)
Record RunAgentResult := mkRunAgentResult { result_id : Z }.

(** [run_agent(params)], for a request that the backend answers with
    [result]. *)
Definition run_agent (params : RunAgentParams) (result : RunAgentResult) (m : Morph)
    : Outcome string * Morph :=
  match client m with
  | None =>
      (Throw (String.append
                "waiting for a connection to rift-engine, please make sure the rift-engine is running on port "
                (show_Z DEFAULT_PORT)), m)
  | Some c =>
      let c' := sendMessage c (Request "morph/run_agent") in
      let agent := Agent.set_wired
                     (Agent.new (result_id result) (position params) (ra_textDocument params)
                                (next_decoration m)) in
      (Ok (String.append "starting agent " (String.append (show_Z (result_id result)) "...")),
       mkMorph (Some c') (map_set Z.eqb (agents m) (result_id result) agent)
               (visibleTextEditors m) (S (lens_fires m)) (morphNotifyChatCallback m)
               (chat_delivered m) (S (next_decoration m)))
  end.

(** [run_chat(params, callback)], for a request that the backend acknowledges
    ([params] is only forwarded to the backend and is omitted). *)
Definition run_chat (callback : ChatCallback) (m : Morph) : Outcome string * Morph :=
  match client m with
  | None => (Throw "", m)
  | Some c =>
      let c1 := onNotification c "morph/chat_progress" (HChat callback) in
      let c2 := sendMessage c1 (Request "morph/run_chat") in
      (Ok "starting..."%string,
       mkMorph (Some c2) (agents m) (visibleTextEditors m) (lens_fires m) callback
               (chat_delivered m) (next_decoration m))
  end.

(** The commands registered in the constructor:
    [(id) => this.client?.sendNotification(method, { id })]. *)
Definition notify_command (method : string) (id : Z) (m : Morph) : Morph :=
  match client m with
  | None => m
  | Some c => set_client m (Some (sendMessage c (Notification method id)))
  end.

Definition rift_cancel := notify_command "morph/cancel".
Definition rift_accept := notify_command "morph/accept".
Definition rift_reject := notify_command "morph/reject".

(** [create_client()], after the port is found in use and [client.start()]
    resolved: a fresh client with the ['morph/progress'] handler. *)
Definition started_client : LanguageClient :=
  onNotification (mkLC Running [] []) "morph/progress" HMorphNotify.

Definition create_client (m : Morph) : Morph :=
  match client m with
  | Some c => if negb (ClientState_eqb (lc_state c) Stopped) then m
              else set_client m (Some started_client)
  | None => set_client m (Some started_client)
  end.

(** The extension right after [new MorphLanguageClient(context)] and its
    [create_client()] completed. *)
Definition initial (editors : list Editor) : Morph :=
  create_client (mkMorph None [] editors 0 NoCallbackSet [] 0).

(** ** Inbound notifications *)

Inductive Payload :=
  | ProgressPayload (p : RunAgentProgress)
  | ChatPayload (text : string).

Inductive Dispatch :=
  | NoHandler                       (* no handler registered for the method *)
  | Handled (o : Outcome unit).

(** Invoking a chat callback ([morphNotifyChatCallback] as registered). *)
Definition call_chat (cb : ChatCallback) (text : string) (m : Morph) : Outcome unit * Morph :=
  match cb with
  | NoCallbackSet => (Throw "no callback set", m)
  | UserCallback n =>
      (Ok tt, mkMorph (client m) (agents m) (visibleTextEditors m) (lens_fires m)
                      (morphNotifyChatCallback m) (chat_delivered m ++ [(n, text)])
                      (next_decoration m))
  end.

(** The connection delivering a notification of [method] to the handler the
    current client registered for it. *)
Definition dispatch (method : string) (payload : Payload) (m : Morph) : Dispatch * Morph :=
  match client m with
  | None => (NoHandler, m)
  | Some c =>
      match map_get String.eqb (lc_handlers c) method with
      | None => (NoHandler, m)
      | Some HMorphNotify =>
          match payload with
          | ProgressPayload p => let '(o, m') := morph_notify p m in (Handled o, m')
          | ChatPayload _ =>
              (* [this.agents.get(undefined)] finds nothing *)
              if negb (is_running m)
              then (Handled (Throw "client not running, please wait..."), m)
              else (Handled (Throw "agent not found"), m)
          end
      | Some (HChat cb) =>
          match payload with
          | ChatPayload text => let '(o, m') := call_chat cb text m in (Handled o, m')
          | ProgressPayload _ => let '(o, m') := call_chat cb "" m in (Handled o, m')
          end
      end
  end.

(** ** [provideCodeLenses] *)

(** An open document: its uri and the length of each of its lines. *)
Record TextDocument := mkTextDocument { doc_uri : string; doc_lines : list nat }.

(** [document.lineAt(line).range]; [lineAt] throws beyond the last line. *)
Definition lineAt (d : TextDocument) (l : nat) : option Range :=
  match nth_error (doc_lines d) l with
  | Some len => Some (mkRange (mkPosition l 0) (mkPosition l len))
  | None => None
  end.

Record Command := mkCommand {
  title : string;
  command : string;
  tooltip : string;
  arguments : list Z
}.

Record AgentLens := mkAgentLens { lens_range : Range; lens_id : Z; lens_command : Command }.

(** The lenses of one agent whose document is [document]. *)
Definition agent_lenses (document : TextDocument) (agent : Agent.t) : option (list AgentLens) :=
  match lineAt document (line (Agent.startPosition agent)) with
  | None => None
  | Some linetext =>
      match Agent.status agent with
      | running =>
          Some [mkAgentLens linetext (Agent.id agent)
                  (mkCommand "running" "rift.cancel" "click to stop this agent" [Agent.id agent])]
      | done | error =>
          Some [mkAgentLens linetext (Agent.id agent)
                  (mkCommand "Accept ✅ " "rift.accept" "Accept the edits below" [Agent.id agent]);
                mkAgentLens linetext (Agent.id agent)
                  (mkCommand " Reject ❌" "rift.reject"
                     "Reject the edits below and restore the original text" [Agent.id agent])]
      | _ => Some []
      end
  end.

(** [provideCodeLenses(document, token)]: [None] when [lineAt] throws. *)
Fixpoint provideCodeLenses (document : TextDocument) (ags : list (Z * Agent.t))
    : option (list AgentLens) :=
  match ags with
  | [] => Some []
  | (_, agent) :: rest =>
      if String.eqb (uri (Agent.textDocument agent)) (doc_uri document) then
        match agent_lenses document agent, provideCodeLenses document rest with
        | Some here, Some there => Some (here ++ there)
        | _, _ => None
        end
      else provideCodeLenses document rest
  end.

(** ** Synchronous agents, inline completions and reconnection *)

(** The backend's answer to ['morph/run_agent_sync']. *)
Record RunAgentSyncResult := mkRunAgentSyncResult { sync_id : Z; sync_text : string }.

(** [run_agent_sync(params)], for a request that the backend answers with
    [result]: the session is stored, but neither is [onStatusChange]
    subscribed nor [changeLensEmitter] fired. *)
Definition run_agent_sync (params : RunAgentParams) (result : RunAgentSyncResult) (m : Morph)
    : Outcome string * Morph :=
  match client m with
  | None => (Throw "", m)
  | Some c =>
      let c' := sendMessage c (Request "morph/run_agent_sync") in
      let agent := Agent.new (sync_id result) (position params) (ra_textDocument params)
                             (next_decoration m) in
      (Ok (sync_text result),
       mkMorph (Some c') (map_set Z.eqb (agents m) (sync_id result) agent)
               (visibleTextEditors m) (lens_fires m) (morphNotifyChatCallback m)
               (chat_delivered m) (S (next_decoration m)))
  end.




(** A sequence of inbound progress notifications, each routed by
    [morph_notify]; a thrown error leaves the state as it was. *)
Fixpoint notify_all (ps : list RunAgentProgress) (m : Morph) : Morph :=
  match ps with
  | [] => m
  | p :: ps' => notify_all ps' (snd (morph_notify p m))
  end.

(** Every session's decoration type is one handed out before and no two
    sessions share one. *)
Definition decorations_fresh (m : Morph) : Prop :=
  NoDup (map (fun ka => Agent.green (snd ka)) (agents m))
  /\ forall t, In t (map (fun ka => Agent.green (snd ka)) (agents m)) -> t < next_decoration m.

(** ** The webview's [state] store ([webviews/components/stores.ts]) *)

Section WebviewStore.
Variable WebviewState : Type.

(** [event.data]: its [type] and its [data] ([None] when absent). *)
Record WebviewMessage := mkWebviewMessage {
  msg_type : string;
  msg_data : option WebviewState
}.

(** The ['message'] listener [handler]: [Ok v] is [set(v)]. *)
Definition webview_handler (ev : WebviewMessage) : Outcome (option WebviewState) :=
  if String.eqb (msg_type ev) "stateUpdate" then Ok (msg_data ev)
  else Throw (String.append "Message passed to webview that is not stateUpdate: " (msg_type ev)).

(** Messages dispatched one after another: an error thrown by the listener
    is reported and the next message is still dispatched.  Returns the store
    value and the reported errors. *)
Fixpoint webview_deliver (evs : list WebviewMessage) (v : option WebviewState)
    : option WebviewState * list string :=
  match evs with
  | [] => (v, [])
  | ev :: evs' =>
      match webview_handler ev with
      | Ok v' => webview_deliver evs' v'
      | Throw e => let '(v'', errs) := webview_deliver evs' v in (v'', e :: errs)
      end
  end.

(** The data of the last ['stateUpdate'] message, if any. *)
Fixpoint last_state_update (evs : list WebviewMessage) : option (option WebviewState) :=
  match evs with
  | [] => None
  | ev :: evs' =>
      match last_state_update evs' with
      | Some d => Some d
      | None => if String.eqb (msg_type ev) "stateUpdate" then Some (msg_data ev) else None
      end
  end.

End WebviewStore.

(** ** Sample runs *)

Definition pos (l c : nat) : Position := mkPosition l c.
Definition doc_a : TextDocumentIdentifier := mkTDI "a.py".
Definition editor_a : Editor := mkEditor "a.py" [].

Definition fix_bug : RunAgentParams := mkRunAgentParams "fix bug" (pos 3 0) doc_a.

Definition progress (id : Z) (s : AgentStatus) (rs : option (list Range)) : RunAgentProgress :=
  Progress.mk id doc_a None None rs s.

Definition range_3_5 : Range := mkRange (pos 3 0) (pos 5 0).

Definition after_run : Morph := snd (run_agent fix_bug (mkRunAgentResult 1) (initial [editor_a])).

Example run_agent_sample :
  fst (run_agent fix_bug (mkRunAgentResult 1) (initial [editor_a]))
  = Ok "starting agent 1..."%string.
Proof. reflexivity. Qed.

Example show_Z_sample : show_Z 7797 = "7797"%string /\ show_Z (-120) = "-120"%string.
Proof. split; reflexivity. Qed.

Example progress_done_sample :
  let m := snd (morph_notify (progress 1 done (Some [range_3_5])) after_run) in
  option_map Agent.status (map_get Z.eqb (agents m) 1%Z) = Some done
  /\ option_map Agent.ranges (map_get Z.eqb (agents m) 1%Z) = Some [range_3_5]
  /\ option_map (map (fun l => command (lens_command l)))
       (provideCodeLenses (mkTextDocument "a.py" [10;10;10;10;10;10]) (agents m))
     = Some ["rift.accept"; "rift.reject"]%string.
Proof. repeat split; reflexivity. Qed.

Example unknown_id_sample :
  morph_notify (progress 42 running None) (initial []) = (Throw "agent not found", initial []).
Proof. reflexivity. Qed.

(** ** Specification-side definitions *)

(** A session's status after each notification of a sequence, in order. *)
Fixpoint sessions (a : Agent.t) (ps : list RunAgentProgress) (eds : list Editor) : list Agent.t :=
  match ps with
  | [] => []
  | p :: ps' =>
      let '(a', eds') := Agent.handleProgress a p eds in a' :: sessions a' ps' eds'
  end.

(** The session after the whole sequence. *)
Fixpoint handle_all (a : Agent.t) (ps : list RunAgentProgress) (eds : list Editor) : Agent.t :=
  match ps with
  | [] => a
  | p :: ps' => let '(a', eds') := Agent.handleProgress a p eds in handle_all a' ps' eds'
  end.

(** The signals the spec expects: one per notification whose status differs
    from the session's status at the time it is handled. *)
Definition expected_signals (prev : Agent.t) (p : RunAgentProgress) : list AgentStatus :=
  if AgentStatus_eqb (Agent.status prev) (Progress.status p) then [] else [Progress.status p].

(** Successive [run_agent] calls, each answered by the backend. *)
Fixpoint run_agent_calls (calls : list (RunAgentParams * RunAgentResult)) (m : Morph)
    : list (Outcome string) * Morph :=
  match calls with
  | [] => ([], m)
  | (p, r) :: rest =>
      let '(o, m1) := run_agent p r m in
      let '(os, m2) := run_agent_calls rest m1 in (o :: os, m2)
  end.

Definition starting_message (id : Z) : string :=
  String.append "starting agent " (String.append (show_Z id) "...").

(** The lens action set of the presentation adapter, per status. *)
Definition lens_actions (s : AgentStatus) : list string :=
  match s with
  | running => ["rift.cancel"%string]
  | done | error => ["rift.accept"%string; "rift.reject"%string]
  | accepted | rejected => []
  end.

(** [cmd] only sends the notification [method] and changes nothing local. *)
Definition only_notifies (method : string) (cmd : Z -> Morph -> Morph) : Prop :=
  forall id m,
    agents (cmd id m) = agents m
    /\ visibleTextEditors (cmd id m) = visibleTextEditors m
    /\ lens_fires (cmd id m) = lens_fires m
    /\ morphNotifyChatCallback (cmd id m) = morphNotifyChatCallback m
    /\ chat_delivered (cmd id m) = chat_delivered m
    /\ next_decoration (cmd id m) = next_decoration m
    /\ client (cmd id m) = option_map (fun c => sendMessage c (Notification method id)) (client m).

(** ** Lemmas on maps *)

Section AssocMapFacts.
Context {K V : Type} (eqbK : K -> K -> bool)
        (eqbK_spec : forall x y, eqbK x y = true <-> x = y).

Lemma map_get_set_same (m : list (K * V)) k v : map_get eqbK (map_set eqbK m k v) k = Some v.
Proof.
  induction m as [|[k' v'] m IH]; simpl.
  - replace (eqbK k k) with true; [reflexivity|symmetry; apply eqbK_spec; reflexivity].
  - case_eq (eqbK k' k); intro E; simpl.
    + rewrite E. reflexivity.
    + rewrite E. exact IH.
Qed.

Lemma map_set_keys_in (m : list (K * V)) k v k' :
  In k' (map fst (map_set eqbK m k v)) <-> k' = k \/ In k' (map fst m).
Proof.
  induction m as [|[k0 v0] m IH]; simpl.
  - intuition congruence.
  - case_eq (eqbK k0 k); intro E; simpl.
    + apply eqbK_spec in E. subst. intuition congruence.
    + rewrite IH. tauto.
Qed.

Lemma map_set_NoDup (m : list (K * V)) k v :
  NoDup (map fst m) -> NoDup (map fst (map_set eqbK m k v)).
Proof.
  induction m as [|[k0 v0] m IH]; simpl; intro H.
  - constructor; [intros []|constructor].
  - inversion H as [|? ? Hn Hd]; subst.
    case_eq (eqbK k0 k); intro E; simpl.
    + constructor; assumption.
    + constructor; [|apply IH; assumption].
      rewrite map_set_keys_in. intros [Heq|Hin].
      * subst. rewrite (proj2 (eqbK_spec k k) eq_refl) in E. discriminate.
      * contradiction.
Qed.

End AssocMapFacts.

Lemma map_get_set_same_nat (m : list (nat * list Range)) k v :
  map_get Nat.eqb (map_set Nat.eqb m k v) k = Some v.
Proof. apply map_get_set_same. intros; apply Nat.eqb_eq. Qed.

(** ** Lemmas on [handleProgress] *)

Lemma handleProgress_status a p eds :
  Agent.status (fst (Agent.handleProgress a p eds)) = Progress.status p.
Proof.
  unfold Agent.handleProgress, status_truthy; simpl.
  case_eq (AgentStatus_eqb (Agent.status a) (Progress.status p)); intro E; simpl;
    destruct (Progress.ranges p); simpl; try reflexivity;
    apply AgentStatus_eqb_spec; exact E.
Qed.

Lemma handleProgress_fired a p eds :
  Agent.fired (fst (Agent.handleProgress a p eds)) = Agent.fired a ++ expected_signals a p.
Proof.
  unfold Agent.handleProgress, expected_signals, status_truthy; simpl.
  destruct (AgentStatus_eqb (Agent.status a) (Progress.status p)); simpl;
    destruct (Progress.ranges p); simpl; rewrite ?app_nil_r; reflexivity.
Qed.

Lemma handleProgress_green a p eds :
  Agent.green (fst (Agent.handleProgress a p eds)) = Agent.green a.
Proof.
  unfold Agent.handleProgress, status_truthy; simpl.
  destruct (AgentStatus_eqb (Agent.status a) (Progress.status p)); simpl;
    destruct (Progress.ranges p); reflexivity.
Qed.

Lemma handleProgress_ranges a p eds :
  Agent.ranges (fst (Agent.handleProgress a p eds))
  = match Progress.ranges p with Some rs => rs | None => Agent.ranges a end.
Proof.
  unfold Agent.handleProgress, status_truthy; simpl.
  destruct (AgentStatus_eqb (Agent.status a) (Progress.status p)); simpl;
    destruct (Progress.ranges p); reflexivity.
Qed.

(** ** Agent sessions *)

Definition accepted_session : Agent.t :=
  Agent.mk 1 (pos 3 0) doc_a accepted 0 [range_3_5] [done; accepted] true.

(** C1 (counterexample): a session at [accepted] is moved back to [running]
    by a later notification carrying [running]; the terminal status is not
    kept. *)
Lemma C1_terminal_status_overwritten :
  ~ (forall a p eds,
        (Agent.status a = accepted \/ Agent.status a = rejected) ->
        Agent.status (fst (Agent.handleProgress a p eds)) = Agent.status a).
Proof.
  intro H.
  specialize (H accepted_session (progress 1 running None) [] (or_introl eq_refl)).
  discriminate H.
Qed.

(** C1 (amended): after any progress notification, the session's status is
    the notification's status, whatever the previous status was, including
    [accepted] and [rejected]; a notification re-sending the current status
    leaves it unchanged. *)
Theorem handleProgress_status_from_notification a p eds :
  Agent.status (fst (Agent.handleProgress a p eds)) = Progress.status p.
Proof. apply handleProgress_status. Qed.

(** C2 (counterexample): after an [accepted] notification without ranges, a
    session keeps its previous highlighted ranges. *)
Lemma C2_terminal_ranges_kept :
  ~ (forall a p eds,
        (Progress.status p = accepted \/ Progress.status p = rejected) ->
        Agent.ranges (fst (Agent.handleProgress a p eds)) = []).
Proof.
  intro H.
  specialize (H (Agent.set_ranges (Agent.new 1 (pos 3 0) doc_a 0) [range_3_5])
                (progress 1 accepted None) [] (or_introl eq_refl)).
  discriminate H.
Qed.

(** C2 (amended): handling a notification whose status is [accepted] or
    [rejected] empties the session's decorations in every visible editor of
    the notification's document; the session's stored ranges are not cleared:
    they become the notification's ranges when it carries some and are
    otherwise unchanged. *)
Theorem handleProgress_terminal_clears_decorations a p eds :
  (Progress.status p = accepted \/ Progress.status p = rejected) ->
  (forall e, In e (snd (Agent.handleProgress a p eds)) ->
     ed_uri e = uri (Progress.textDocument p) ->
     map_get Nat.eqb (ed_decorations e) (Agent.green (fst (Agent.handleProgress a p eds)))
     = Some [])
  /\ Agent.ranges (fst (Agent.handleProgress a p eds))
     = match Progress.ranges p with Some rs => rs | None => Agent.ranges a end.
Proof.
  intro Hs. split; [|apply handleProgress_ranges].
  intros e Hin Hu. rewrite handleProgress_green.
  unfold Agent.handleProgress in Hin; simpl in Hin.
  apply in_map_iff in Hin as [e0 [<- _]].
  unfold Agent.decorate in *.
  destruct (String.eqb (ed_uri e0) (uri (Progress.textDocument p))) eqn:E.
  - destruct Hs as [Hs|Hs]; rewrite Hs; apply map_get_set_same_nat.
  - rewrite Hu in E. rewrite String.eqb_refl in E. discriminate.
Qed.

Lemma handleProgress_terminal_clears_decorations_witness :
  Progress.status (progress 1 accepted None) = accepted
  /\ (forall e,
        In e (snd (Agent.handleProgress accepted_session (progress 1 accepted None) [editor_a])) ->
        ed_uri e = uri (Progress.textDocument (progress 1 accepted None)) ->
        map_get Nat.eqb (ed_decorations e)
          (Agent.green (fst (Agent.handleProgress accepted_session (progress 1 accepted None)
                                                  [editor_a])))
        = Some [])
     /\ Agent.ranges (fst (Agent.handleProgress accepted_session (progress 1 accepted None)
                                                [editor_a]))
        = [range_3_5].
Proof.
  split; [reflexivity|].
  exact (handleProgress_terminal_clears_decorations accepted_session (progress 1 accepted None)
           [editor_a] (or_introl eq_refl)).
Defined.

(** C4: a notification carrying [ranges] replaces the session's ranges
    wholesale with exactly those ranges. *)
Theorem handleProgress_ranges_replaced a p eds rs :
  Progress.ranges p = Some rs ->
  Agent.ranges (fst (Agent.handleProgress a p eds)) = rs.
Proof. intro H. rewrite handleProgress_ranges, H. reflexivity. Qed.

Lemma handleProgress_ranges_replaced_witness :
  Progress.ranges (progress 1 done (Some [range_3_5])) = Some [range_3_5]
  /\ Agent.ranges (fst (Agent.handleProgress accepted_session (progress 1 done (Some [range_3_5]))
                                             [editor_a])) = [range_3_5].
Proof.
  split; [reflexivity|].
  apply (handleProgress_ranges_replaced accepted_session (progress 1 done (Some [range_3_5]))
           [editor_a] [range_3_5]).
  reflexivity.
Defined.

(** C6: over any sequence of notifications, the session's status-change
    signal fires once for each notification whose status differs from the
    session's status when it is handled, and never for one that re-sends the
    current status. *)
Theorem status_signal_once_per_change a ps eds :
  Agent.fired (handle_all a ps eds)
  = Agent.fired a
    ++ flat_map (fun '(prev, p) => expected_signals prev p) (combine (a :: sessions a ps eds) ps).
Proof.
  revert a eds. induction ps as [|p ps IH]; intros a eds.
  - simpl. rewrite app_nil_r. reflexivity.
  - cbn [handle_all sessions]. destruct (Agent.handleProgress a p eds) as [a' eds'] eqn:E.
    cbn [combine flat_map].
    pose proof (handleProgress_fired a p eds) as F. rewrite E in F. simpl in F.
    rewrite IH, F, app_assoc. reflexivity.
Qed.

(** ** Progress routing *)

(** The extension with a client that has not reached [Running] yet. *)
Definition starting_state : Morph :=
  set_client (initial []) (Some (mkLC Starting [("morph/progress"%string, HMorphNotify)] [])).

(** C3 (counterexample): while the client is not running, a notification for
    an unknown id raises the not-running error, not the routing error. *)
Lemma C3_not_running_error_first :
  ~ (forall p m,
        map_get Z.eqb (agents m) (Progress.id p) = None ->
        fst (morph_notify p m) = Throw "agent not found").
Proof.
  intro H. specialize (H (progress 42 running None) starting_state eq_refl).
  discriminate H.
Qed.

(** C3 (amended): a notification whose id is not a key of the registry
    raises an error and leaves the whole client state unchanged, so no entry
    is created: the routing error ['agent not found'] when the client is
    running, the ['client not running'] error otherwise. *)
Theorem morph_notify_unknown_id p m :
  map_get Z.eqb (agents m) (Progress.id p) = None ->
  morph_notify p m
  = (Throw (if is_running m then "agent not found" else "client not running, please wait..."), m).
Proof.
  intro H. unfold morph_notify. destruct (is_running m); simpl; [rewrite H|]; reflexivity.
Qed.

Lemma morph_notify_unknown_id_witness :
  map_get Z.eqb (agents after_run) 42%Z = None
  /\ morph_notify (progress 42 running None) after_run = (Throw "agent not found", after_run).
Proof.
  split; [reflexivity|].
  exact (morph_notify_unknown_id (progress 42 running None) after_run eq_refl).
Defined.

(** C10: while the client exists but is not [Running], a progress
    notification raises the not-running error and changes nothing; the
    outcome does not depend on the registry, which is never consulted. *)
Theorem morph_notify_not_running p m c :
  client m = Some c -> lc_state c <> Running ->
  morph_notify p m = (Throw "client not running, please wait...", m)
  /\ (forall ags,
        morph_notify p (set_agents m ags)
        = (Throw "client not running, please wait...", set_agents m ags)).
Proof.
  intros Hc Hs.
  assert (R : is_running m = false).
  { unfold is_running. rewrite Hc. destruct (lc_state c); simpl; congruence. }
  split.
  - unfold morph_notify. rewrite R. reflexivity.
  - intro ags. unfold morph_notify.
    replace (is_running (set_agents m ags)) with (is_running m) by reflexivity.
    rewrite R. reflexivity.
Qed.

Lemma morph_notify_not_running_witness :
  client starting_state = Some (mkLC Starting [("morph/progress"%string, HMorphNotify)] [])
  /\ Starting <> Running
  /\ morph_notify (progress 1 done None) starting_state
     = (Throw "client not running, please wait...", starting_state)
  /\ (forall ags,
        morph_notify (progress 1 done None) (set_agents starting_state ags)
        = (Throw "client not running, please wait...", set_agents starting_state ags)).
Proof.
  split; [reflexivity|]. split; [discriminate|].
  exact (morph_notify_not_running (progress 1 done None) starting_state _ eq_refl
           (fun H => match H in _ = s return (match s with Running => False | _ => True end)
                     with eq_refl => I end)).
Defined.

(** C9: the cancel, accept and reject commands only append their
    notification to the connection's outbound messages; the registry, every
    session (status and ranges), the editors and all other local state are
    unchanged. *)
Theorem commands_only_notify :
  only_notifies "morph/cancel" rift_cancel
  /\ only_notifies "morph/accept" rift_accept
  /\ only_notifies "morph/reject" rift_reject.
Proof.
  unfold only_notifies, rift_cancel, rift_accept, rift_reject, notify_command.
  split; [|split]; intros id m; destruct (client m) as [c|] eqn:E;
    repeat split; simpl; rewrite ?E; reflexivity.
Qed.

(** ** Creating agents *)

Lemma run_agent_some_client p r m c :
  client m = Some c ->
  exists c', client (snd (run_agent p r m)) = Some c'
             /\ fst (run_agent p r m) = Ok (starting_message (result_id r))
             /\ agents (snd (run_agent p r m))
                = map_set Z.eqb (agents m) (result_id r)
                    (Agent.set_wired (Agent.new (result_id r) (position p) (ra_textDocument p)
                                                (next_decoration m))).
Proof. intro H. unfold run_agent. rewrite H. eexists. repeat split. Qed.

Lemma run_agent_calls_spec calls : forall m c,
  client m = Some c -> NoDup (map fst (agents m)) ->
  (exists c', client (snd (run_agent_calls calls m)) = Some c')
  /\ NoDup (map fst (agents (snd (run_agent_calls calls m))))
  /\ fst (run_agent_calls calls m)
     = map (fun pr => Ok (starting_message (result_id (snd pr)))) calls.
Proof.
  induction calls as [|[p r] calls IH]; intros m c Hc Hd.
  - simpl. eauto.
  - destruct (run_agent_some_client p r m c Hc) as [c1 [Hc1 [Ho Ha]]].
    cbn [run_agent_calls].
    destruct (run_agent p r m) as [o m1] eqn:E. simpl in Hc1, Ho, Ha.
    assert (Hd1 : NoDup (map fst (agents m1))).
    { rewrite Ha. apply map_set_NoDup; [intros; apply Z.eqb_eq|exact Hd]. }
    destruct (IH m1 c1 Hc1 Hd1) as [Hc2 [Hd2 Ho2]].
    destruct (run_agent_calls calls m1) as [os m2]. simpl in *.
    subst o. rewrite Ho2. eauto.
Qed.

(** C5 (counterexample): the value [run_agent] resolves to is the message
    ['starting agent 1...'], not the id [1]. *)
Lemma C5_result_is_message :
  ~ (forall p r m c,
        client m = Some c -> fst (run_agent p r m) = Ok (show_Z (result_id r))).
Proof.
  intro H.
  specialize (H fix_bug (mkRunAgentResult 1) (initial []) started_client eq_refl).
  discriminate H.
Qed.

(** C5 (amended): along any sequence of run_agent calls answered by the
    backend, starting from a connected client whose registry has distinct
    keys, the registry keys stay distinct (a repeated id replaces the earlier
    entry in place) and every call resolves to the message
    ['starting agent <id>...']; each such call stores under the returned id a
    new session with that id, status [running], anchored at the call's
    position and document, with no ranges. *)
Theorem run_agent_registry calls m c :
  client m = Some c -> NoDup (map fst (agents m)) ->
  NoDup (map fst (agents (snd (run_agent_calls calls m))))
  /\ fst (run_agent_calls calls m)
     = map (fun pr => Ok (starting_message (result_id (snd pr)))) calls
  /\ (forall p r m0 c0,
        client m0 = Some c0 ->
        fst (run_agent p r m0) = Ok (starting_message (result_id r))
        /\ exists a,
             map_get Z.eqb (agents (snd (run_agent p r m0))) (result_id r) = Some a
             /\ Agent.id a = result_id r
             /\ Agent.status a = running
             /\ Agent.startPosition a = position p
             /\ Agent.textDocument a = ra_textDocument p
             /\ Agent.ranges a = []).
Proof.
  intros Hc Hd.
  destruct (run_agent_calls_spec calls m c Hc Hd) as [_ [Hd' Ho]].
  split; [exact Hd'|]. split; [exact Ho|].
  intros p r m0 c0 Hc0.
  destruct (run_agent_some_client p r m0 c0 Hc0) as [c1 [_ [Ho1 Ha1]]].
  split; [exact Ho1|].
  eexists. rewrite Ha1. split; [apply map_get_set_same; intros; apply Z.eqb_eq|].
  repeat split.
Qed.

Lemma run_agent_registry_witness :
  client (initial []) = Some started_client
  /\ NoDup (map fst (agents (initial [])))
  /\ agents (snd (run_agent_calls [(fix_bug, mkRunAgentResult 1); (fix_bug, mkRunAgentResult 2);
                                   (fix_bug, mkRunAgentResult 1)] (initial [])))
     <> []
  /\ NoDup (map fst (agents (snd (run_agent_calls [(fix_bug, mkRunAgentResult 1);
                                                    (fix_bug, mkRunAgentResult 2);
                                                    (fix_bug, mkRunAgentResult 1)] (initial []))))).
Proof.
  split; [reflexivity|]. split; [constructor|]. split; [discriminate|].
  exact (proj1 (run_agent_registry _ (initial []) started_client eq_refl (NoDup_nil _))).
Defined.

(** ** Chat progress *)

(** C7 (code defect): the ['morph/chat_progress'] handler is registered only
    by [run_chat], so before any [run_chat] call a chat-progress notification
    finds no handler of the client and raises nothing, although the callback
    slot holds the default that throws ['no callback set']. *)
Theorem chat_progress_before_run_chat_unhandled eds text :
  dispatch "morph/chat_progress" (ChatPayload text) (initial eds) = (NoHandler, initial eds)
  /\ morphNotifyChatCallback (initial eds) = NoCallbackSet
  /\ fst (call_chat NoCallbackSet text (initial eds)) = Throw "no callback set".
Proof. repeat split. Qed.

(** ** Code lenses *)

Definition lens_view (l : AgentLens) : Z * nat * string :=
  (lens_id l, line (r_start (lens_range l)), command (lens_command l)).

Definition expected_lenses (document : TextDocument) (ka : Z * Agent.t) : list (Z * nat * string) :=
  let a := snd ka in
  if String.eqb (uri (Agent.textDocument a)) (doc_uri document)
  then map (fun c => (Agent.id a, line (Agent.startPosition a), c)) (lens_actions (Agent.status a))
  else [].

Definition two_agents_same_line : Morph :=
  snd (run_agent_calls [(fix_bug, mkRunAgentResult 1); (fix_bug, mkRunAgentResult 2)] (initial [])).

Definition doc_a_text : TextDocument := mkTextDocument "a.py" [10; 10; 10; 10; 10; 10].

(** C8 (counterexample): two running agents started at line 3 of the same
    document give that line two ['cancel'] actions. *)
Lemma C8_two_agents_one_line :
  ~ (forall document ags ls k a,
        provideCodeLenses document ags = Some ls ->
        In (k, a) ags -> uri (Agent.textDocument a) = doc_uri document ->
        Agent.status a = running ->
        map (fun x => command (lens_command x))
            (filter (fun x => Nat.eqb (line (r_start (lens_range x)))
                                      (line (Agent.startPosition a))) ls)
        = ["rift.cancel"%string]).
Proof.
  intro H.
  specialize (H doc_a_text (agents two_agents_same_line) _ 1%Z
                (Agent.set_wired (Agent.new 1 (pos 3 0) doc_a 0))
                eq_refl (or_introl eq_refl) eq_refl eq_refl).
  discriminate H.
Qed.

Lemma agent_lenses_spec document a :
  line (Agent.startPosition a) < length (doc_lines document) ->
  exists here, agent_lenses document a = Some here
               /\ map lens_view here
                  = map (fun c => (Agent.id a, line (Agent.startPosition a), c))
                        (lens_actions (Agent.status a)).
Proof.
  intro H. apply nth_error_Some in H.
  unfold agent_lenses, lineAt.
  destruct (nth_error (doc_lines document) (line (Agent.startPosition a))) as [len|];
    [|congruence].
  destruct (Agent.status a); eexists; split; reflexivity.
Qed.

(** C8 (amended): when every agent of the document is anchored at a line that
    exists in it, the lenses are, for each agent of the document in registry
    order, at the agent's start line and carrying its id: one ['cancel']
    action when it is [running], an ['accept'] then a ['reject'] action when
    it is [done] or [error], none when it is [accepted] or [rejected]. A line
    anchoring several agents carries the actions of each. *)
Theorem provideCodeLenses_actions document ags :
  (forall k a, In (k, a) ags ->
     uri (Agent.textDocument a) = doc_uri document ->
     line (Agent.startPosition a) < length (doc_lines document)) ->
  exists ls, provideCodeLenses document ags = Some ls
             /\ map lens_view ls = flat_map (expected_lenses document) ags.
Proof.
  induction ags as [|[k a] ags IH]; intro H.
  - exists []. split; reflexivity.
  - destruct IH as [there [Ht Hv]].
    { intros k' a' Hin. apply (H k' a'). right. exact Hin. }
    simpl. unfold expected_lenses at 1. simpl.
    destruct (String.eqb (uri (Agent.textDocument a)) (doc_uri document)) eqn:E.
    + apply String.eqb_eq in E.
      destruct (agent_lenses_spec document a (H k a (or_introl eq_refl) E)) as [here [Hh Hm]].
      rewrite Hh, Ht. exists (here ++ there). split; [reflexivity|].
      rewrite map_app, Hm, Hv. reflexivity.
    + exists there. split; [exact Ht|exact Hv].
Qed.

Lemma provideCodeLenses_actions_witness :
  (forall k a, In (k, a) (agents two_agents_same_line) ->
     uri (Agent.textDocument a) = doc_uri doc_a_text ->
     line (Agent.startPosition a) < length (doc_lines doc_a_text))
  /\ exists ls, provideCodeLenses doc_a_text (agents two_agents_same_line) = Some ls
                /\ map lens_view ls = flat_map (expected_lenses doc_a_text)
                                               (agents two_agents_same_line).
Proof.
  assert (H : forall k a, In (k, a) (agents two_agents_same_line) ->
                uri (Agent.textDocument a) = doc_uri doc_a_text ->
                line (Agent.startPosition a) < length (doc_lines doc_a_text)).
  { intros k a Hin _. simpl in Hin.
    destruct Hin as [Hin|[Hin|[]]]; inversion Hin; subst; simpl; lia. }
  split; [exact H|].
  exact (provideCodeLenses_actions doc_a_text (agents two_agents_same_line) H).
Defined.

(** ** Further lemmas on maps *)

Section AssocMapMore.
Context {K V : Type} (eqbK : K -> K -> bool)
        (eqbK_spec : forall x y, eqbK x y = true <-> x = y).


Lemma map_get_set_other (m : list (K * V)) k k' v :
  k <> k' -> map_get eqbK (map_set eqbK m k v) k' = map_get eqbK m k'.
Proof.
  intro Hne. induction m as [|[k0 v0] m IH]; simpl.
  - destruct (eqbK k k') eqn:E; [apply eqbK_spec in E; contradiction|reflexivity].
  - destruct (eqbK k0 k) eqn:E; simpl.
    + apply eqbK_spec in E. subst.
      destruct (eqbK k k') eqn:E'; [apply eqbK_spec in E'; contradiction|reflexivity].
    + rewrite IH. reflexivity.
Qed.

Variable (A : Type) (g : V -> A).

Lemma map_set_image_same (m : list (K * V)) k v v' :
  map_get eqbK m k = Some v -> g v' = g v ->
  map (fun kv => g (snd kv)) (map_set eqbK m k v') = map (fun kv => g (snd kv)) m.
Proof.
  intros Hg Heq. induction m as [|[k0 v0] m IH]; simpl in *; [discriminate|].
  destruct (eqbK k0 k).
  - inversion Hg; subst. simpl. rewrite Heq. reflexivity.
  - simpl. rewrite IH by exact Hg. reflexivity.
Qed.

Lemma map_set_image_in (m : list (K * V)) k v x :
  In x (map (fun kv => g (snd kv)) (map_set eqbK m k v)) ->
  x = g v \/ In x (map (fun kv => g (snd kv)) m).
Proof.
  induction m as [|[k0 v0] m IH]; simpl.
  - intros [H|[]]. left. symmetry. exact H.
  - destruct (eqbK k0 k); simpl.
    + intros [H|H]; [left; symmetry; exact H|right; right; exact H].
    + intros [H|H]; [right; left; exact H|].
      destruct (IH H); [left|right; right]; assumption.
Qed.

Lemma map_set_image_NoDup (m : list (K * V)) k v :
  NoDup (map (fun kv => g (snd kv)) m) -> ~ In (g v) (map (fun kv => g (snd kv)) m) ->
  NoDup (map (fun kv => g (snd kv)) (map_set eqbK m k v)).
Proof.
  induction m as [|[k0 v0] m IH]; simpl; intros Hd Hn.
  - constructor; [intros []|constructor].
  - inversion Hd as [|? ? Hn0 Hd0]; subst.
    destruct (eqbK k0 k); simpl.
    + constructor; [|exact Hd0]. intro H. apply Hn. right. exact H.
    + constructor; [|apply IH; [exact Hd0|intro H; apply Hn; right; exact H]].
      intro H. apply map_set_image_in in H as [H|H].
      * apply Hn. left. exact H.
      * contradiction.
Qed.

End AssocMapMore.

Lemma map_set_keys_same (m : list (Z * Agent.t)) k v v' :
  map_get Z.eqb m k = Some v -> map fst (map_set Z.eqb m k v') = map fst m.
Proof.
  intro Hg. induction m as [|[k0 v0] m IH]; simpl in *; [discriminate|].
  destruct (Z.eqb k0 k); simpl; [reflexivity|rewrite IH by exact Hg; reflexivity].
Qed.

Lemma morph_notify_keys p m :
  map fst (agents (snd (morph_notify p m))) = map fst (agents m).
Proof.
  unfold morph_notify. destruct (negb (is_running m)); [reflexivity|].
  destruct (map_get Z.eqb (agents m) (Progress.id p)) as [a|] eqn:E; [|reflexivity].
  destruct (Agent.handleProgress a p (visibleTextEditors m)) as [a' eds].
  simpl. exact (map_set_keys_same _ _ _ _ E).
Qed.


(** ** Further properties of the client *)

(** Progress notifications never add, remove or reorder registry entries:
    after any sequence of them, handled or rejected, the registry has the
    same keys in the same order. *)
Theorem notify_all_keys ps m :
  map fst (agents (notify_all ps m)) = map fst (agents m).
Proof.
  revert m. induction ps as [|p ps IH]; intro m; simpl; [reflexivity|].
  rewrite IH. apply morph_notify_keys.
Qed.

Lemma morph_notify_found p m a :
  is_running m = true ->
  map_get Z.eqb (agents m) (Progress.id p) = Some a ->
  fst (morph_notify p m) = Ok tt
  /\ map_get Z.eqb (agents (snd (morph_notify p m))) (Progress.id p)
     = Some (fst (Agent.handleProgress a p (visibleTextEditors m)))
  /\ visibleTextEditors (snd (morph_notify p m))
     = snd (Agent.handleProgress a p (visibleTextEditors m))
  /\ lens_fires (snd (morph_notify p m))
     = lens_fires m + (if Agent.wired a && negb (AgentStatus_eqb (Agent.status a) (Progress.status p))
                       then 1 else 0).
Proof.
  intros Hr Hg. unfold morph_notify. rewrite Hr, Hg. cbn [negb].
  pose proof (handleProgress_fired a p (visibleTextEditors m)) as F.
  destruct (Agent.handleProgress a p (visibleTextEditors m)) as [a' eds] eqn:E.
  cbn [fst snd agents visibleTextEditors lens_fires] in *.
  split; [reflexivity|]. split; [apply map_get_set_same; intros; apply Z.eqb_eq|].
  split; [reflexivity|].
  f_equal. rewrite F, length_app. unfold expected_signals.
  destruct (Agent.wired a), (AgentStatus_eqb (Agent.status a) (Progress.status p)); simpl; lia.
Qed.

(** A notification for a registered id, on a running client, succeeds: the
    session stored under the id becomes the result of [handleProgress], the
    visible editors get its decoration updates, and the code lenses are
    refreshed once exactly when the session was created by [run_agent] and
    its status changed. *)
Theorem morph_notify_known_id p m a :
  is_running m = true ->
  map_get Z.eqb (agents m) (Progress.id p) = Some a ->
  fst (morph_notify p m) = Ok tt
  /\ map_get Z.eqb (agents (snd (morph_notify p m))) (Progress.id p)
     = Some (fst (Agent.handleProgress a p (visibleTextEditors m)))
  /\ visibleTextEditors (snd (morph_notify p m))
     = snd (Agent.handleProgress a p (visibleTextEditors m))
  /\ lens_fires (snd (morph_notify p m))
     = lens_fires m + (if Agent.wired a && negb (AgentStatus_eqb (Agent.status a) (Progress.status p))
                       then 1 else 0).
Proof. apply morph_notify_found. Qed.

Lemma morph_notify_known_id_witness :
  is_running after_run = true
  /\ map_get Z.eqb (agents after_run) 1%Z
     = Some (Agent.set_wired (Agent.new 1 (pos 3 0) doc_a 0))
  /\ lens_fires (snd (morph_notify (progress 1 done None) after_run))
     = lens_fires after_run + 1.
Proof.
  split; [reflexivity|]. split; [reflexivity|].
  exact (proj2 (proj2 (proj2 (morph_notify_known_id (progress 1 done None) after_run _
                                eq_refl eq_refl)))).
Defined.



(** [run_agent_sync] on a connected client resolves to the backend's text
    and stores under the returned id a new [running] session at the call's
    position and document, not subscribed to lens refreshes; it does not
    refresh the lenses itself. Without a client it raises and changes
    nothing. *)
Theorem run_agent_sync_session p r m :
  (client m = None -> run_agent_sync p r m = (Throw "", m))
  /\ (client m <> None ->
      fst (run_agent_sync p r m) = Ok (sync_text r)
      /\ lens_fires (snd (run_agent_sync p r m)) = lens_fires m
      /\ exists a,
           map_get Z.eqb (agents (snd (run_agent_sync p r m))) (sync_id r) = Some a
           /\ Agent.id a = sync_id r /\ Agent.status a = running
           /\ Agent.startPosition a = position p
           /\ Agent.textDocument a = ra_textDocument p
           /\ Agent.wired a = false).
Proof.
  unfold run_agent_sync. split.
  - intro H. rewrite H. reflexivity.
  - intro H. destruct (client m) as [c|]; [|contradiction].
    split; [reflexivity|]. split; [reflexivity|].
    eexists. split; [simpl; apply map_get_set_same; intros; apply Z.eqb_eq|].
    repeat split.
Qed.

(** Lens refreshes: on a running client, a session created by [run_agent]
    refreshes the lenses when it is created and again when a notification
    changes its status; one created by [run_agent_sync] never does. *)
Theorem lens_refresh_run_agent_vs_sync p r rs q m c :
  client m = Some c -> lc_state c = Running ->
  Progress.id q = result_id r -> Progress.status q <> running ->
  lens_fires (snd (morph_notify q (snd (run_agent p r m)))) = lens_fires m + 2
  /\ (Progress.id q = sync_id rs ->
      lens_fires (snd (morph_notify q (snd (run_agent_sync p rs m)))) = lens_fires m).
Proof.
  intros Hc Hs Hid Hst.
  assert (Hne : AgentStatus_eqb running (Progress.status q) = false).
  { destruct (Progress.status q); simpl; congruence. }
  split.
  - pose proof (morph_notify_found q (snd (run_agent p r m))
                  (Agent.set_wired (Agent.new (result_id r) (position p) (ra_textDocument p)
                                              (next_decoration m)))) as K.
    unfold run_agent in *. rewrite Hc in *. cbn [snd] in *.
    destruct K as [_ [_ [_ HL]]].
    + unfold is_running, sendMessage. cbn [client lc_state]. rewrite Hs. reflexivity.
    + cbn [agents]. rewrite Hid. apply map_get_set_same. intros; apply Z.eqb_eq.
    + rewrite HL. cbn [lens_fires Agent.wired Agent.set_wired Agent.status Agent.new].
      rewrite Hne. simpl. lia.
  - intro Hid'.
    pose proof (morph_notify_found q (snd (run_agent_sync p rs m))
                  (Agent.new (sync_id rs) (position p) (ra_textDocument p)
                             (next_decoration m))) as K.
    unfold run_agent_sync in *. rewrite Hc in *. cbn [snd] in *.
    destruct K as [_ [_ [_ HL]]].
    + unfold is_running, sendMessage. cbn [client lc_state]. rewrite Hs. reflexivity.
    + cbn [agents]. rewrite Hid'. apply map_get_set_same. intros; apply Z.eqb_eq.
    + rewrite HL. cbn [lens_fires Agent.wired Agent.new]. simpl. lia.
Qed.

Lemma lens_refresh_run_agent_vs_sync_witness :
  Progress.id (progress 1 done None) = result_id (mkRunAgentResult 1)
  /\ Progress.status (progress 1 done None) <> running
  /\ lens_fires (snd (morph_notify (progress 1 done None)
                        (snd (run_agent fix_bug (mkRunAgentResult 1) (initial [])))))
     = lens_fires (initial []) + 2.
Proof.
  split; [reflexivity|]. split; [discriminate|].
  exact (proj1 (lens_refresh_run_agent_vs_sync fix_bug (mkRunAgentResult 1)
                  (mkRunAgentSyncResult 1 "") (progress 1 done None) (initial [])
                  started_client eq_refl eq_refl eq_refl
                  (fun H => match H in _ = s return (match s with running => False | _ => True end)
                            with eq_refl => I end))).
Defined.


Definition doc_a_short : TextDocument := mkTextDocument "a.py" [10; 10].


(** The lens provider raises (no lenses at all) as soon as one agent of the
    document is anchored at a line beyond the document's last line, e.g.
    after the document was shortened. *)
Theorem provideCodeLenses_line_beyond_end document ags k a :
  In (k, a) ags -> uri (Agent.textDocument a) = doc_uri document ->
  length (doc_lines document) <= line (Agent.startPosition a) ->
  provideCodeLenses document ags = None.
Proof.
  intros Hin Hu Hl. induction ags as [|[k' a'] ags IH]; [destruct Hin|].
  simpl. destruct Hin as [Heq|Hin].
  - inversion Heq; subst. rewrite Hu, String.eqb_refl.
    unfold agent_lenses, lineAt.
    rewrite (proj2 (nth_error_None _ _) Hl). reflexivity.
  - rewrite (IH Hin).
    destruct (String.eqb (uri (Agent.textDocument a')) (doc_uri document));
      [destruct (agent_lenses document a'); reflexivity|reflexivity].
Qed.

Lemma provideCodeLenses_line_beyond_end_witness :
  In (1%Z, Agent.set_wired (Agent.new 1 (pos 3 0) doc_a 0)) (agents after_run)
  /\ uri doc_a = doc_uri doc_a_short
  /\ length (doc_lines doc_a_short) <= 3
  /\ provideCodeLenses doc_a_short (agents after_run) = None.
Proof.
  split; [left; reflexivity|]. split; [reflexivity|]. split; [simpl; lia|].
  exact (provideCodeLenses_line_beyond_end doc_a_short (agents after_run) 1%Z _
           (or_introl eq_refl) eq_refl (le_n_S _ _ (le_n_S _ _ (Nat.le_0_l _)))).
Defined.

Lemma map_copy_range rs : map Agent.copy_range rs = rs.
Proof.
  induction rs as [|[[] []] rs IH]; simpl; [reflexivity|]. rewrite IH. reflexivity.
Qed.

(** [handleProgress] decorates the visible editors of the notification's
    document (not necessarily the session's own) and only through the
    session's decoration type: the session's decorations there become empty
    for [accepted]/[rejected], the notification's ranges otherwise when it
    carries some, and are kept when it carries none; editors of other
    documents and the decorations of other sessions are untouched. *)
Theorem handleProgress_editor_decorations a p eds :
  length (snd (Agent.handleProgress a p eds)) = length eds
  /\ forall i e, nth_error eds i = Some e ->
     exists e', nth_error (snd (Agent.handleProgress a p eds)) i = Some e'
       /\ ed_uri e' = ed_uri e
       /\ (forall t, t <> Agent.green a ->
             map_get Nat.eqb (ed_decorations e') t = map_get Nat.eqb (ed_decorations e) t)
       /\ map_get Nat.eqb (ed_decorations e') (Agent.green a)
          = if String.eqb (ed_uri e) (uri (Progress.textDocument p)) then
              match Progress.status p, Progress.ranges p with
              | accepted, _ | rejected, _ => Some []
              | _, Some rs => Some rs
              | _, None => map_get Nat.eqb (ed_decorations e) (Agent.green a)
              end
            else map_get Nat.eqb (ed_decorations e) (Agent.green a).
Proof.
  unfold Agent.handleProgress; cbn [snd]. split; [apply length_map|].
  intros i e He. exists (Agent.decorate a p e). rewrite nth_error_map, He.
  split; [reflexivity|].
  assert (Hset : forall rs, map_get Nat.eqb (ed_decorations (setDecorations e (Agent.green a) rs))
                              (Agent.green a) = Some rs
                 /\ forall t, t <> Agent.green a ->
                    map_get Nat.eqb (ed_decorations (setDecorations e (Agent.green a) rs)) t
                    = map_get Nat.eqb (ed_decorations e) t).
  { intro rs. split; [apply map_get_set_same_nat|].
    intros t Ht. apply (map_get_set_other Nat.eqb); [intros; apply Nat.eqb_eq|auto]. }
  unfold Agent.decorate.
  destruct (String.eqb (ed_uri e) (uri (Progress.textDocument p)));
    [|split; [reflexivity|split; [auto|reflexivity]]].
  all: destruct (Progress.status p); destruct (Progress.ranges p) as [rs|];
    rewrite ?map_copy_range.
  all: try (match goal with |- context [setDecorations _ _ ?rs] =>
              destruct (Hset rs) as [H1 H2]; split; [reflexivity|split; [exact H2|exact H1]] end).
  all: split; [reflexivity|split; [auto|reflexivity]].
Qed.

Lemma handleProgress_editor_decorations_witness :
  nth_error [editor_a] 0 = Some editor_a
  /\ exists e', nth_error (snd (Agent.handleProgress accepted_session
                                  (progress 1 done (Some [range_3_5])) [editor_a])) 0 = Some e'
       /\ map_get Nat.eqb (ed_decorations e') 0 = Some [range_3_5].
Proof.
  split; [reflexivity|].
  destruct (proj2 (handleProgress_editor_decorations accepted_session
                     (progress 1 done (Some [range_3_5])) [editor_a]) 0 editor_a eq_refl)
    as [e' [He [_ [_ Hg]]]].
  exists e'. split; [exact He|exact Hg].
Defined.

(** Each session gets its own decoration type: starting from a state where
    the sessions' decoration types are distinct and all handed out before,
    [run_agent], [run_agent_sync] and [morph_notify] keep it so, so clearing
    or replacing one session's highlights never touches another's. *)
Theorem decorations_fresh_preserved m p r rs q :
  decorations_fresh m ->
  decorations_fresh (snd (run_agent p r m))
  /\ decorations_fresh (snd (run_agent_sync p rs m))
  /\ decorations_fresh (snd (morph_notify q m)).
Proof.
  intros [Hd Hb].
  assert (Hadd : forall k (v : Agent.t), Agent.green v = next_decoration m ->
            NoDup (map (fun ka => Agent.green (snd ka)) (map_set Z.eqb (agents m) k v))
            /\ forall t, In t (map (fun ka => Agent.green (snd ka)) (map_set Z.eqb (agents m) k v)) ->
                 t < S (next_decoration m)).
  { intros k v Hv. split.
    - apply (map_set_image_NoDup Z.eqb); [exact Hd|]. rewrite Hv. intro H.
      apply Hb in H. lia.
    - intros t Ht. apply (map_set_image_in Z.eqb) in Ht as [Ht|Ht].
      + rewrite Ht, Hv. lia.
      + apply Hb in Ht. lia. }
  split; [|split].
  - unfold run_agent. destruct (client m); [|split; assumption].
    apply Hadd. reflexivity.
  - unfold run_agent_sync. destruct (client m); [|split; assumption].
    apply Hadd. reflexivity.
  - unfold morph_notify. destruct (negb (is_running m)); [split; assumption|].
    destruct (map_get Z.eqb (agents m) (Progress.id q)) as [a|] eqn:E; [|split; assumption].
    pose proof (handleProgress_green a q (visibleTextEditors m)) as G.
    destruct (Agent.handleProgress a q (visibleTextEditors m)) as [a' eds]. cbn [fst] in G.
    unfold decorations_fresh; cbn [snd agents next_decoration].
    rewrite (map_set_image_same Z.eqb _ Agent.green _ _ _ _ E G). split; assumption.
Qed.

Lemma decorations_fresh_preserved_witness :
  decorations_fresh (initial [])
  /\ decorations_fresh (snd (run_agent fix_bug (mkRunAgentResult 1) (initial []))).
Proof.
  assert (H : decorations_fresh (initial [])) by (split; [constructor|intros t []]).
  split; [exact H|].
  exact (proj1 (decorations_fresh_preserved (initial []) fix_bug (mkRunAgentResult 1)
                  (mkRunAgentSyncResult 1 "") (progress 1 done None) H)).
Defined.



(** Only the latest [run_chat] callback receives chat progress: after two
    [run_chat] calls on a connected client, a chat-progress notification is
    delivered once, to the second callback, and to no other. *)
Theorem run_chat_latest_callback m c n1 n2 text :
  client m = Some c ->
  fst (dispatch "morph/chat_progress" (ChatPayload text)
         (snd (run_chat (UserCallback n2) (snd (run_chat (UserCallback n1) m)))))
  = Handled (Ok tt)
  /\ chat_delivered (snd (dispatch "morph/chat_progress" (ChatPayload text)
                            (snd (run_chat (UserCallback n2) (snd (run_chat (UserCallback n1) m))))))
     = chat_delivered m ++ [(n2, text)].
Proof.
  intro H. unfold run_chat. rewrite H. simpl.
  unfold dispatch, onNotification, sendMessage. simpl.
  rewrite (map_get_set_same String.eqb); [|intros; apply String.eqb_eq].
  split; reflexivity.
Qed.

Lemma run_chat_latest_callback_witness :
  client (initial []) = Some started_client
  /\ chat_delivered (snd (dispatch "morph/chat_progress" (ChatPayload "hi")
                            (snd (run_chat (UserCallback 2) (snd (run_chat (UserCallback 1)
                                                                  (initial []))))))) = [(2, "hi"%string)].
Proof.
  split; [reflexivity|].
  exact (proj2 (run_chat_latest_callback (initial []) started_client 1 2 "hi" eq_refl)).
Defined.

(** The webview's [state] store: after any sequence of messages it holds the
    data of the last ['stateUpdate'] message, whatever it held before
    (wholesale replacement), or its previous value if there was none; every
    other message raises the not-stateUpdate error naming its type and leaves
    the value alone. *)
Theorem webview_store_last_update (S : Type) (evs : list (WebviewMessage S)) (v : option S) :
  fst (webview_deliver S evs v)
  = match last_state_update S evs with Some d => d | None => v end
  /\ snd (webview_deliver S evs v)
     = map (fun ev => String.append "Message passed to webview that is not stateUpdate: "
                                    (msg_type S ev))
           (filter (fun ev => negb (String.eqb (msg_type S ev) "stateUpdate")) evs).
Proof.
  revert v. induction evs as [|ev evs IH]; intro v; [split; reflexivity|].
  cbn [webview_deliver last_state_update filter]. unfold webview_handler.
  destruct (String.eqb (msg_type S ev) "stateUpdate") eqn:E; cbn [negb].
  - destruct (IH (msg_data S ev)) as [H1 H2]. split; [|exact H2].
    rewrite H1. destruct (last_state_update S evs); reflexivity.
  - destruct (IH v) as [H1 H2].
    destruct (webview_deliver S evs v) as [v'' errs]. cbn [fst snd] in *.
    split; [rewrite H1; destruct (last_state_update S evs); reflexivity|].
    rewrite H2. reflexivity.
Qed.

Lemma run_agent_sync_session_witness :
  client (initial []) <> None
  /\ fst (run_agent_sync fix_bug (mkRunAgentSyncResult 4 "text") (initial [])) = Ok "text"%string.
Proof.
  assert (H : client (initial []) <> None) by discriminate.
  split; [exact H|].
  exact (proj1 (proj2 (run_agent_sync_session fix_bug (mkRunAgentSyncResult 4 "text")
                         (initial [])) H)).
Defined.
